(** * django-markitup: the widget adapter of [markitup/widgets.py]

    A shallow embedding of the widget classes of [markitup/widgets.py]
    (the [BuildAttrsCompat] mixin, [MarkupInput], [MarkItUpWidget] and
    [AdminMarkItUpWidget]) and the properties of their rendering,
    attribute merging and media declaration.

    Python dictionaries of HTML attributes are finite maps from strings
    to strings, exceptions are an explicit result type, and the one
    effect a claim depends on, reading an attribute of a value, is
    recorded in an event trace threaded through [render]. *)

From Stdlib Require Import Ascii String.
From stdpp Require Import gmap strings list fin_maps.

Open Scope string_scope.

(** ** Python values, exceptions and the effect monad *)

Inductive exn : Type :=
| AttributeError
| NoReverseMatch
| KeyError (key : string)
| TypeError (msg : string)
| OtherError (name : string).

Inductive result (A : Type) : Type :=
| Ok (a : A)
| Raise (e : exn).
Arguments Ok {A} a.
Arguments Raise {A} e.

(** A value handed to [render]: [None], a text, or an object.  An object
    carries its default string form and what reading its [raw]
    attribute does: the attribute is missing, holds a value, or is a
    property whose getter raises. *)
Inductive value : Type :=
| VNone
| VStr (s : string)
| VObj (repr : string) (raw : attr_slot)
with attr_slot : Type :=
| NoAttr
| HasAttr (v : value)
| GetterRaises (e : exn).

(** Reading an attribute is observable (a property getter may do
    anything), so each read is logged. *)
Inductive event : Type :=
| GetAttr (target : value) (attr : string).

Definition trace := list event.

Definition M (A : Type) : Type := trace -> result A * trace.

Definition ret {A} (a : A) : M A := fun t => (Ok a, t).

Definition raise {A} (e : exn) : M A := fun t => (Raise e, t).

Definition bind {A B} (m : M A) (k : A -> M B) : M B :=
  fun t => match m t with
           | (Ok a, t') => k a t'
           | (Raise e, t') => (Raise e, t')
           end.

Definition lift {A} (r : result A) : M A := fun t => (r, t).

Definition emit (e : event) : M unit := fun t => (Ok tt, (t ++ [e])%list).

Declare Scope py_scope.
Delimit Scope py_scope with py.
Notation "x <- m ;; k" := (bind m (fun x => k))
  (at level 100, m at next level, right associativity) : py_scope.

(** [try: body except <exception>: handler], with [is_caught] the test of
    the except clause. *)
Definition try_except {A} (body : M A) (is_caught : exn -> bool)
    (handler : M A) : M A :=
  fun t => match body t with
           | (Ok a, t') => (Ok a, t')
           | (Raise e, t') => if is_caught e then handler t' else (Raise e, t')
           end.

Definition result_bind {A B} (r : result A) (k : A -> result B) : result B :=
  match r with
  | Ok a => k a
  | Raise e => Raise e
  end.

Definition result_try {A} (body : result A) (is_caught : exn -> bool)
    (handler : result A) : result A :=
  match body with
  | Ok a => Ok a
  | Raise e => if is_caught e then handler else Raise e
  end.

Definition is_AttributeError (e : exn) : bool :=
  match e with AttributeError => true | _ => false end.

Definition is_NoReverseMatch (e : exn) : bool :=
  match e with NoReverseMatch => true | _ => false end.

Definition is_None (v : value) : bool :=
  match v with VNone => true | _ => false end.

(** [value.raw]: the read is logged, then answered by the object's slot.
    [None] and texts have no such attribute. *)
Definition getattr_raw (v : value) : M value :=
  bind (emit (GetAttr v "raw")) (fun _ =>
    match v with
    | VNone => raise AttributeError
    | VStr _ => raise AttributeError
    | VObj _ NoAttr => raise AttributeError
    | VObj _ (HasAttr r) => ret r
    | VObj _ (GetterRaises e) => raise e
    end).

(** [d[key]] on an attribute dictionary. *)
Definition getitem (d : gmap string string) (key : string) : result string :=
  match d !! key with
  | Some v => Ok v
  | None => Raise (KeyError key)
  end.

(** [d.copy(); d.update(e)]: the keys of [e] win. *)
Definition dict_update (d e : gmap string string) : gmap string string := e ∪ d.

(** ** [posixpath.join] for one component *)

Definition startswith_sep (b : string) : bool :=
  match b with
  | String c _ => Ascii.eqb c "/"%char
  | EmptyString => false
  end.

Fixpoint endswith_sep (p : string) : bool :=
  match p with
  | EmptyString => false
  | String c EmptyString => Ascii.eqb c "/"%char
  | String _ rest => endswith_sep rest
  end.

Definition is_empty (p : string) : bool :=
  match p with EmptyString => true | _ => false end.

Definition posixpath_join (a b : string) : string :=
  if startswith_sep b then b
  else if is_empty a || endswith_sep a then a ++ b
  else a ++ "/" ++ b.

(** ** The host framework

    The widget classes extend Django's.  The methods they reach through
    [super] are small and are written out here; what produces HTML or
    resolves routes is left to the [Host] interface below. *)

Module Django.

(** [Widget.__init__(self, attrs=None)]: [self.attrs] is a copy of
    [attrs], or an empty dictionary. *)
Definition Widget_init (attrs : option (gmap string string))
    : gmap string string :=
  match attrs with
  | Some a => a
  | None => ∅
  end.

(** [Textarea.__init__]: default [cols] and [rows], updated with a
    non-empty [attrs]. *)
Definition Textarea_init (attrs : option (gmap string string))
    : gmap string string :=
  let default_attrs : gmap string string :=
    {[ "cols" := "40"; "rows" := "10" ]} in
  Widget_init (Some (match attrs with
                     | Some a => dict_update default_attrs a
                     | None => default_attrs
                     end)).

(** [AdminTextareaWidget.__init__]: the admin style class, updated with
    [attrs], handed to [Textarea.__init__]. *)
Definition AdminTextareaWidget_init (attrs : option (gmap string string))
    : gmap string string :=
  let final_attrs : gmap string string :=
    {[ "class" := "vLargeTextField" ]} in
  Textarea_init (Some (match attrs with
                       | Some a => dict_update final_attrs a
                       | None => final_attrs
                       end)).

(** [Widget.build_attrs(self, extra_attrs=None, **kwargs)], the
    signature before Django 1.11:
    [attrs = dict(self.attrs, **kwargs)], updated with a non-empty
    [extra_attrs]. *)
Definition Widget_build_attrs_old (self_attrs : gmap string string)
    (extra_attrs : option (gmap string string))
    (kwargs : gmap string string) : gmap string string :=
  let attrs := dict_update self_attrs kwargs in
  match extra_attrs with
  | Some e => if bool_decide (e = ∅) then attrs else dict_update attrs e
  | None => attrs
  end.

(** [Widget.build_attrs(self, base_attrs, extra_attrs=None)], the
    signature from Django 1.11 on: a copy of [base_attrs], updated
    with [extra_attrs] when it is not [None]. *)
Definition Widget_build_attrs_new (base_attrs : gmap string string)
    (extra_attrs : option (gmap string string)) : gmap string string :=
  let attrs := base_attrs in
  match extra_attrs with
  | Some e => dict_update attrs e
  | None => attrs
  end.

End Django.

(** ** Widget instances and classes *)

(** The instance attributes [__init__] sets: [self.attrs] (here
    [widget_attrs]), [self.miu_set], [self.miu_skin],
    [self.auto_preview]. *)
Record instance : Type := {
  widget_attrs : gmap string string;
  miu_set : string;
  miu_skin : string;
  auto_preview : bool
}.

(** What a subclass may override: the attribute hook. *)
Record widget_class : Type := {
  cls_build_attrs_extra :
    instance -> gmap string string -> gmap string string
}.

(** The context dictionary given to the [markitup/editor.html]
    template. *)
Record editor_context : Type := {
  textarea_id : string;
  AUTO_PREVIEW : bool;
  preview_url : string
}.

(** [mark_safe(html)] *)
Inductive safestring : Type :=
| mark_safe (html : string).

(** A [forms.Media] object: the stylesheets per medium and the scripts. *)
Record Media : Type := {
  css : gmap string (list string);
  js : list string
}.

(** The body of the loops of [Media.add_js] and [Media.add_css]: a path
    is appended unless it is listed already. *)
Definition Media_add_path (listed : list string) (path : string)
    : list string :=
  if bool_decide (path ∈ listed) then listed else (listed ++ [path])%list.

Definition Media_add_paths (listed data : list string) : list string :=
  foldl Media_add_path listed data.

(** [forms.Media(css=..., js=...)]: [add_css] and [add_js] on an empty
    object.  A medium is created by its first path, so a medium without
    paths is not listed. *)
Definition forms_Media (css0 : gmap string (list string))
    (js0 : list string) : Media :=
  {| css := omap (fun paths => match Media_add_paths [] paths with
                               | [] => None
                               | l => Some l
                               end) css0;
     js := Media_add_paths [] js0 |}.

(** [markitup.settings] *)
Record Settings : Type := {
  MARKITUP_SET : string;
  MARKITUP_SKIN : string;
  MARKITUP_AUTO_PREVIEW : bool;
  JQUERY_URL : option string
}.

(** What the module imports and does not define: the signature flag
    computed at import time, the text-area rendering reached through
    [super], [reverse], [render_to_string], [markitup.util.absolute_url]
    and the settings. *)
Class Host : Type := {
  new_style_build_attrs : bool;
  Textarea_render :
    widget_class -> instance -> string -> value ->
    option (gmap string string) -> result string;
  reverse : string -> result string;
  render_to_string : string -> editor_context -> result string;
  absolute_url : string -> string;
  settings : Settings
}.

(** ** [class BuildAttrsCompat] *)

Module BuildAttrsCompat.

(** [build_attrs] when [new_style_build_attrs] holds. *)
Definition build_attrs_new (cls : widget_class) (self : instance)
    (base_attrs : gmap string string)
    (extra_attrs : option (gmap string string)) : gmap string string :=
  let attrs := Django.Widget_build_attrs_new base_attrs extra_attrs in
  cls_build_attrs_extra cls self attrs.

(** [build_attrs] otherwise. *)
Definition build_attrs_old (cls : widget_class) (self : instance)
    (extra_attrs : option (gmap string string))
    (kwargs : gmap string string) : gmap string string :=
  let attrs :=
    Django.Widget_build_attrs_old (widget_attrs self) extra_attrs kwargs in
  cls_build_attrs_extra cls self attrs.

(** The default hook. *)
Definition build_attrs_extra (self : instance)
    (attrs : gmap string string) : gmap string string :=
  attrs.

(** [build_attrs_compat] when [new_style_build_attrs] holds. *)
Definition build_attrs_compat_new (cls : widget_class) (self : instance)
    (base_attrs : gmap string string)
    (extra_attrs : option (gmap string string)) : gmap string string :=
  build_attrs_new cls self base_attrs extra_attrs.

(** [build_attrs_compat] otherwise. *)
Definition build_attrs_compat_old (cls : widget_class) (self : instance)
    (base_attrs : gmap string string)
    (extra_attrs : option (gmap string string)) : gmap string string :=
  let attrs := base_attrs in
  let attrs := match extra_attrs with
               | Some e => dict_update attrs e
               | None => attrs
               end in
  cls_build_attrs_extra cls self attrs.

(** The method the class body binds, chosen once by the flag. *)
Definition build_attrs_compat `{Host} (cls : widget_class)
    (self : instance) (base_attrs : gmap string string)
    (extra_attrs : option (gmap string string)) : gmap string string :=
  if new_style_build_attrs
  then build_attrs_compat_new cls self base_attrs extra_attrs
  else build_attrs_compat_old cls self base_attrs extra_attrs.

(** The call [self.build_attrs(attrs, name=name)]: one positional
    argument and the keyword [name].  The old signature takes it as
    [extra_attrs] and [**kwargs]; the new signature has no parameter
    [name] and no [**kwargs], so binding the arguments raises
    [TypeError]. *)
Definition call_build_attrs_name `{Host} (cls : widget_class)
    (self : instance) (attrs : option (gmap string string))
    (name : string) : result (gmap string string) :=
  if new_style_build_attrs
  then Raise (TypeError "build_attrs() got an unexpected keyword argument 'name'")
  else Ok (build_attrs_old cls self attrs {[ "name" := name ]}).

(** A class that does not override the hook. *)
Definition default_class : widget_class :=
  {| cls_build_attrs_extra := build_attrs_extra |}.

End BuildAttrsCompat.

(** ** [class MarkupInput] *)

Module MarkupInput.

(** Lines 74 to 81 of [render]: the value [super] is given. *)
Definition unwrap_raw (value0 : value) : M value :=
  if negb (is_None value0)
  then try_except (getattr_raw value0) is_AttributeError (ret value0)
  else ret value0.

(** [render], with [super_render] the next [render] in the method
    resolution order. *)
Definition render
    (super_render : string -> value -> option (gmap string string) -> M string)
    (name : string) (value0 : value)
    (attrs : option (gmap string string)) : M string :=
  (value1 <- unwrap_raw value0 ;;
   super_render name value1 attrs)%py.

End MarkupInput.

(** ** [class MarkItUpWidget] *)

Module MarkItUpWidget.

(** [a or b] on a keyword argument that defaults to [None]: [None] and
    the empty text are false. *)
Definition py_or (a : option string) (b : string) : string :=
  match a with
  | Some s => if is_empty s then b else s
  | None => b
  end.

(** [__init__], with [super_init] the next [__init__] in the method
    resolution order. *)
Definition init_with `{Host}
    (super_init : option (gmap string string) -> gmap string string)
    (attrs : option (gmap string string))
    (markitup_set markitup_skin : option string)
    (auto_preview0 : option bool) : instance :=
  let miu_set0 := absolute_url (py_or markitup_set (MARKITUP_SET settings)) in
  let miu_skin0 := absolute_url (py_or markitup_skin (MARKITUP_SKIN settings)) in
  let auto_preview1 := match auto_preview0 with
                       | None => MARKITUP_AUTO_PREVIEW settings
                       | Some b => b
                       end in
  {| widget_attrs := super_init attrs;
     miu_set := miu_set0;
     miu_skin := miu_skin0;
     auto_preview := auto_preview1 |}.

Definition init `{Host} := init_with Django.Textarea_init.

Definition _media `{Host} (self : instance) : Media :=
  let js_media := match JQUERY_URL settings with
                  | Some u => [absolute_url u]
                  | None => []
                  end in
  let js_media := (js_media ++ [absolute_url "markitup/ajax_csrf.js";
                                absolute_url "markitup/jquery.markitup.js";
                                posixpath_join (miu_set self) "set.js"])%list in
  forms_Media
    {[ "screen" := [posixpath_join (miu_skin self) "style.css";
                    posixpath_join (miu_set self) "style.css"] ]}
    js_media.

(** The [try: reverse('markitup_preview') except NoReverseMatch: ""]
    block. *)
Definition resolve_preview_url `{Host} : result string :=
  result_try (reverse "markitup_preview") is_NoReverseMatch (Ok "").

(** Lines 133 to 144 of [render]: the attributes, the preview URL and
    the rendered editor template. *)
Definition editor_markup `{Host} (cls : widget_class) (self : instance)
    (name : string) (attrs : option (gmap string string)) : result string :=
  result_bind (BuildAttrsCompat.call_build_attrs_name cls self attrs name)
    (fun base_attrs =>
  let final_attrs :=
    BuildAttrsCompat.build_attrs_compat cls self base_attrs attrs in
  result_bind resolve_preview_url (fun preview_url0 =>
  result_bind (getitem final_attrs "id") (fun id =>
  render_to_string "markitup/editor.html"
    {| textarea_id := id;
       AUTO_PREVIEW := auto_preview self;
       preview_url := preview_url0 |}))).

Definition render `{Host} (cls : widget_class) (self : instance)
    (name : string) (value0 : value)
    (attrs : option (gmap string string)) : M safestring :=
  (html <- MarkupInput.render
             (fun n v a => lift (Textarea_render cls self n v a))
             name value0 attrs ;;
   editor <- lift (editor_markup cls self name attrs) ;;
   ret (mark_safe (html ++ editor)))%py.

End MarkItUpWidget.

(** ** [class AdminMarkItUpWidget] *)

Module AdminMarkItUpWidget.

(** [MarkItUpWidget.__init__] with [AdminTextareaWidget.__init__] next
    in the method resolution order. *)
Definition init `{Host} :=
  MarkItUpWidget.init_with Django.AdminTextareaWidget_init.

(** Inherited unchanged. *)
Definition render `{Host} := MarkItUpWidget.render.

End AdminMarkItUpWidget.

(** ** An example deployment

    A host to run the widget on: static files under [/static/], a
    text-area and an editor template that print their inputs, and a URL
    configuration that either has the preview route or lacks it. *)

Definition text_of (v : value) : string :=
  match v with
  | VNone => ""
  | VStr s => s
  | VObj repr _ => repr
  end.

Definition example_settings : Settings :=
  {| MARKITUP_SET := "markitup/sets/default";
     MARKITUP_SKIN := "markitup/skins/simple";
     MARKITUP_AUTO_PREVIEW := false;
     JQUERY_URL := Some "/static/jquery.min.js" |}.

Definition example_host (new_style : bool) (route : result string)
    (jquery : option string) : Host :=
  {| new_style_build_attrs := new_style;
     Textarea_render := fun _ _ name v _ =>
       Ok ("<textarea name=" ++ name ++ ">" ++ text_of v ++ "</textarea>");
     reverse := fun _ => route;
     render_to_string := fun _ ctx =>
       Ok ("<script>miu(" ++ textarea_id ctx ++ "," ++ preview_url ctx ++ ")</script>");
     absolute_url := fun p => if startswith_sep p then p else "/static/" ++ p;
     settings := {| MARKITUP_SET := MARKITUP_SET example_settings;
                    MARKITUP_SKIN := MARKITUP_SKIN example_settings;
                    MARKITUP_AUTO_PREVIEW := MARKITUP_AUTO_PREVIEW example_settings;
                    JQUERY_URL := jquery |} |}.

Definition old_django : Host :=
  example_host false (Ok "/markitup/preview/") (Some "/static/jquery.min.js").

Definition old_django_no_route : Host :=
  example_host false (Raise NoReverseMatch) None.

Definition new_django : Host :=
  example_host true (Ok "/markitup/preview/") (Some "/static/jquery.min.js").

(** The same deployment with a text-area whose rendering fails. *)
Definition old_django_broken_textarea : Host :=
  {| new_style_build_attrs := false;
     Textarea_render := fun _ _ _ _ _ => Raise (OtherError "UnicodeDecodeError");
     reverse := @reverse old_django;
     render_to_string := @render_to_string old_django;
     absolute_url := @absolute_url old_django;
     settings := @settings old_django |}.

(** The same deployment with a URL configuration that cannot be loaded. *)
Definition old_django_broken_urlconf : Host :=
  example_host false (Raise (OtherError "ImproperlyConfigured")) None.


(** A host with another [reverse], everything else unchanged. *)
Definition with_reverse (H : Host) (r : string -> result string) : Host :=
  {| new_style_build_attrs := @new_style_build_attrs H;
     Textarea_render := @Textarea_render H;
     reverse := r;
     render_to_string := @render_to_string H;
     absolute_url := @absolute_url H;
     settings := @settings H |}.

(** ** The effect monad *)

Lemma bind_ret_l {A B} (a : A) (k : A -> M B) (t : trace) :
  bind (ret a) k t = k a t.
Proof. reflexivity. Qed.

Lemma bind_ok {A B} (m : M A) (k : A -> M B) (t t' : trace) (a : A) :
  m t = (Ok a, t') -> bind m k t = k a t'.
Proof. intros Hm. unfold bind. now rewrite Hm. Qed.

Lemma bind_raise {A B} (m : M A) (k : A -> M B) (t t' : trace) (e : exn) :
  m t = (Raise e, t') -> bind m k t = (Raise e, t').
Proof. intros Hm. unfold bind. now rewrite Hm. Qed.

Lemma bind_lift {A B} (r : result A) (k : A -> M B) (t : trace) :
  bind (lift r) k t = match r with Ok a => k a t | Raise e => (Raise e, t) end.
Proof. unfold bind, lift. now destruct r. Qed.

(** ** [posixpath.join] *)

Example join_plain :
  posixpath_join "/static/markitup/sets/default" "set.js"
  = "/static/markitup/sets/default/set.js".
Proof. reflexivity. Qed.

Example join_trailing_sep :
  posixpath_join "/static/markitup/sets/default/" "set.js"
  = "/static/markitup/sets/default/set.js".
Proof. reflexivity. Qed.

Example join_empty_dir : posixpath_join "" "style.css" = "style.css".
Proof. reflexivity. Qed.

(** ** [MarkupInput.render] *)

Lemma unwrap_raw_None (t : trace) :
  MarkupInput.unwrap_raw VNone t = (Ok VNone, t).
Proof. reflexivity. Qed.

Lemma unwrap_raw_has_attr (repr : string) (r : value) (t : trace) :
  MarkupInput.unwrap_raw (VObj repr (HasAttr r)) t
  = (Ok r, (t ++ [GetAttr (VObj repr (HasAttr r)) "raw"])%list).
Proof. reflexivity. Qed.

Lemma unwrap_raw_no_attr (repr : string) (t : trace) :
  MarkupInput.unwrap_raw (VObj repr NoAttr) t
  = (Ok (VObj repr NoAttr), (t ++ [GetAttr (VObj repr NoAttr) "raw"])%list).
Proof. reflexivity. Qed.

Lemma unwrap_raw_str (s : string) (t : trace) :
  MarkupInput.unwrap_raw (VStr s) t
  = (Ok (VStr s), (t ++ [GetAttr (VStr s) "raw"])%list).
Proof. reflexivity. Qed.

Lemma unwrap_raw_getter (repr : string) (e : exn) (t : trace) :
  MarkupInput.unwrap_raw (VObj repr (GetterRaises e)) t
  = (if is_AttributeError e then Ok (VObj repr (GetterRaises e)) else Raise e,
     (t ++ [GetAttr (VObj repr (GetterRaises e)) "raw"])%list).
Proof. unfold MarkupInput.unwrap_raw; simpl. unfold try_except; simpl.
  now destruct (is_AttributeError e). Qed.

(** The unwrapping always yields a value unless a property getter
    raises something other than [AttributeError]. *)
Lemma unwrap_raw_total (v : value) (t : trace) :
  (forall repr e, v = VObj repr (GetterRaises e) -> is_AttributeError e = true) ->
  exists v' t', MarkupInput.unwrap_raw v t = (Ok v', t').
Proof.
  intros Hg. destruct v as [| s | repr [| r | e]].
  - eauto using unwrap_raw_None.
  - eauto using unwrap_raw_str.
  - eauto using unwrap_raw_no_attr.
  - eauto using unwrap_raw_has_attr.
  - rewrite unwrap_raw_getter, (Hg repr e eq_refl). eauto.
Qed.

(** C2, as the code has it.  For every value, [MarkupInput.render] runs
    the next [render] on [None] itself for [None], on the [raw] content
    for an object that has one, and on the value unchanged when reading
    [raw] raises [AttributeError] (a text, an object without [raw], a
    getter that raises it).  A getter that raises anything else makes
    [render] raise it, and the next [render] is not run. *)
Theorem C2_render_unwraps_raw
    (super_render : string -> value -> option (gmap string string) -> M string)
    (name : string) (v : value)
    (attrs : option (gmap string string)) (t : trace) :
  MarkupInput.render super_render name v attrs t
  = match v with
    | VNone => super_render name VNone attrs t
    | VStr _ | VObj _ NoAttr =>
        super_render name v attrs (t ++ [GetAttr v "raw"])%list
    | VObj _ (HasAttr r) =>
        super_render name r attrs (t ++ [GetAttr v "raw"])%list
    | VObj _ (GetterRaises e) =>
        if is_AttributeError e
        then super_render name v attrs (t ++ [GetAttr v "raw"])%list
        else (Raise e, (t ++ [GetAttr v "raw"])%list)
    end.
Proof.
  destruct v as [| s | repr [| r | e]]; try reflexivity.
  unfold MarkupInput.render, bind. rewrite unwrap_raw_getter.
  now destruct (is_AttributeError e).
Qed.

(** A value whose [raw] getter raises [KeyError]: [render] raises it
    although the next [render] would have returned. *)
Lemma C2_getter_error_is_raised :
  MarkupInput.render (fun _ v _ => ret ("<textarea>" ++ text_of v ++ "</textarea>"))
    "body" (VObj "<Lazy>" (GetterRaises (KeyError "source"))) None []
  = (Raise (KeyError "source"),
     [GetAttr (VObj "<Lazy>" (GetterRaises (KeyError "source"))) "raw"]).
Proof. reflexivity. Qed.

(** An exception other than [AttributeError] from the getter is not
    caught. *)
Lemma render_getter_other_error
    (super_render : string -> value -> option (gmap string string) -> M string)
    (name repr : string) (e : exn)
    (attrs : option (gmap string string)) (t : trace) :
  is_AttributeError e = false ->
  MarkupInput.render super_render name (VObj repr (GetterRaises e)) attrs t
  = (Raise e, (t ++ [GetAttr (VObj repr (GetterRaises e)) "raw"])%list).
Proof.
  intros He. unfold MarkupInput.render.
  apply bind_raise. now rewrite unwrap_raw_getter, He.
Qed.

(** C9. For [None] the value is kept without any attribute read (the
    trace is untouched) and [None] itself goes to the next [render]. *)
Theorem C9_render_None_no_probe
    (super_render : string -> value -> option (gmap string string) -> M string)
    (name : string) (attrs : option (gmap string string)) (t : trace) :
  MarkupInput.unwrap_raw VNone t = (Ok VNone, t)
  /\ MarkupInput.render super_render name VNone attrs t
     = super_render name VNone attrs t.
Proof. split; reflexivity. Qed.

(** ** [MarkItUpWidget.__init__] and [MarkItUpWidget._media] *)

Section Media.
Context `{Host}.

Lemma py_or_None (b : string) : MarkItUpWidget.py_or None b = b.
Proof. reflexivity. Qed.

Lemma py_or_nonempty (c : ascii) (s b : string) :
  MarkItUpWidget.py_or (Some (String c s)) b = String c s.
Proof. reflexivity. Qed.

Lemma py_or_empty (b : string) : MarkItUpWidget.py_or (Some "") b = b.
Proof. reflexivity. Qed.

Lemma Media_add_paths_cons (listed data : list string) (path : string) :
  Media_add_paths listed (path :: data)
  = Media_add_paths (Media_add_path listed path) data.
Proof. reflexivity. Qed.

Lemma Media_add_path_elem (x path : string) (listed : list string) :
  x ∈ Media_add_path listed path <-> x ∈ listed \/ x = path.
Proof.
  unfold Media_add_path. case_bool_decide as Hin.
  - split; [auto |]. intros [Hx | ->]; assumption.
  - rewrite elem_of_app, list_elem_of_singleton. reflexivity.
Qed.

(** Every path handed over is listed, and nothing else is. *)
Lemma Media_add_paths_elem (x : string) (listed data : list string) :
  x ∈ Media_add_paths listed data <-> x ∈ listed \/ x ∈ data.
Proof.
  revert listed. induction data as [| path data IH]; intros listed.
  - simpl. rewrite elem_of_nil. tauto.
  - rewrite Media_add_paths_cons, IH, Media_add_path_elem, elem_of_cons. tauto.
Qed.

(** What is listed stays in front. *)
Lemma Media_add_paths_prefix (listed data : list string) :
  exists l, Media_add_paths listed data = (listed ++ l)%list.
Proof.
  revert listed. induction data as [| path data IH]; intros listed.
  - exists []. simpl. now rewrite app_nil_r.
  - rewrite Media_add_paths_cons. unfold Media_add_path.
    case_bool_decide as Hin; [apply IH |].
    destruct (IH (listed ++ [path])%list) as [l Hl].
    exists (path :: l). rewrite Hl, <- app_assoc. reflexivity.
Qed.



Lemma Media_add_path_first (path : string) : Media_add_path [] path = [path].
Proof.
  unfold Media_add_path.
  now rewrite bool_decide_eq_false_2 by apply not_elem_of_nil.
Qed.

Lemma Media_add_paths_pair (a b : string) :
  Media_add_paths [] [a; b] = if decide (a = b) then [a] else [a; b].
Proof.
  rewrite !Media_add_paths_cons, Media_add_path_first. simpl.
  unfold Media_add_path.
  destruct (decide (a = b)) as [-> | Hne].
  - rewrite bool_decide_eq_true_2; [reflexivity | left].
  - rewrite bool_decide_eq_false_2; [reflexivity |].
    rewrite list_elem_of_singleton. congruence.
Qed.

Lemma Media_add_paths_head (path : string) (data : list string) :
  head (Media_add_paths [] (path :: data)) = Some path.
Proof.
  rewrite Media_add_paths_cons, Media_add_path_first.
  destruct (Media_add_paths_prefix [path] data) as [l ->]. reflexivity.
Qed.

Lemma posixpath_join_relative (a b : string) :
  startswith_sep b = false ->
  posixpath_join a b
  = if is_empty a || endswith_sep a then a ++ b else a ++ "/" ++ b.
Proof. intros Hb. unfold posixpath_join. now rewrite Hb. Qed.

Lemma media_js (self : instance) :
  js (MarkItUpWidget._media self)
  = Media_add_paths []
      (match JQUERY_URL settings with
       | Some u => [absolute_url u]
       | None => []
       end ++ [absolute_url "markitup/ajax_csrf.js";
               absolute_url "markitup/jquery.markitup.js";
               posixpath_join (miu_set self) "set.js"])%list.
Proof. reflexivity. Qed.

Lemma media_css (self : instance) :
  css (MarkItUpWidget._media self)
  = {[ "screen" :=
         if decide (posixpath_join (miu_skin self) "style.css"
                    = posixpath_join (miu_set self) "style.css")
         then [posixpath_join (miu_skin self) "style.css"]
         else [posixpath_join (miu_skin self) "style.css";
               posixpath_join (miu_set self) "style.css"] ]}.
Proof.
  unfold MarkItUpWidget._media, forms_Media. simpl.
  apply omap_singleton_Some. rewrite Media_add_paths_pair.
  destruct (decide _); reflexivity.
Qed.

(** C5, as the code has it.  The [screen] stylesheets are the skin's
    [style.css] then the set's [style.css]: two entries when the two
    URLs differ, and one when they are the same URL, which the media
    object lists once.  Each URL is the directory, a separator unless
    the directory is empty or ends with one, and the file name.  No
    other medium is declared, and the scripts include
    [jquery.markitup.js] and the set's [set.js]. *)
Theorem C5_media_assets (self : instance) :
  css (MarkItUpWidget._media self) !! "screen"
  = Some (if decide (posixpath_join (miu_skin self) "style.css"
                     = posixpath_join (miu_set self) "style.css")
          then [posixpath_join (miu_skin self) "style.css"]
          else [posixpath_join (miu_skin self) "style.css";
                posixpath_join (miu_set self) "style.css"])
  /\ dom (css (MarkItUpWidget._media self)) = {[ "screen" ]}
  /\ absolute_url "markitup/jquery.markitup.js" ∈ js (MarkItUpWidget._media self)
  /\ posixpath_join (miu_set self) "set.js" ∈ js (MarkItUpWidget._media self)
  /\ posixpath_join (miu_skin self) "style.css"
     = (if is_empty (miu_skin self) || endswith_sep (miu_skin self)
        then miu_skin self ++ "style.css"
        else miu_skin self ++ "/" ++ "style.css")
  /\ posixpath_join (miu_set self) "style.css"
     = (if is_empty (miu_set self) || endswith_sep (miu_set self)
        then miu_set self ++ "style.css"
        else miu_set self ++ "/" ++ "style.css")
  /\ posixpath_join (miu_set self) "set.js"
     = (if is_empty (miu_set self) || endswith_sep (miu_set self)
        then miu_set self ++ "set.js"
        else miu_set self ++ "/" ++ "set.js").
Proof.
  split; [| split; [| split; [| split; [| split; [| split]]]]].
  - rewrite media_css. apply lookup_singleton_eq.
  - rewrite media_css. apply dom_singleton_L.
  - rewrite media_js. apply Media_add_paths_elem. right.
    apply elem_of_app. right. set_solver.
  - rewrite media_js. apply Media_add_paths_elem. right.
    apply elem_of_app. right. set_solver.
  - now apply posixpath_join_relative.
  - now apply posixpath_join_relative.
  - now apply posixpath_join_relative.
Qed.


(** C4, as the code has it.  The button-set path, the skin path and the
    auto-preview flag default to their settings; a non-empty path and a
    given flag passed to the constructor take their place, and an empty
    path gives way to the setting.  The jQuery URL has no constructor
    argument: whatever the constructor is given, the scripts are those
    of the [JQUERY_URL] setting followed by the fixed ones, and start
    with the setting's URL when it is set. *)
Theorem C4_constructor_overrides
    (attrs : option (gmap string string))
    (markitup_set markitup_skin : option string) (auto_preview0 : option bool)
    (c : ascii) (s : string) (b : bool) :
  miu_set (MarkItUpWidget.init attrs None markitup_skin auto_preview0)
  = absolute_url (MARKITUP_SET settings)
  /\ miu_set (MarkItUpWidget.init attrs (Some (String c s)) markitup_skin auto_preview0)
     = absolute_url (String c s)
  /\ miu_set (MarkItUpWidget.init attrs (Some "") markitup_skin auto_preview0)
     = absolute_url (MARKITUP_SET settings)
  /\ miu_skin (MarkItUpWidget.init attrs markitup_set None auto_preview0)
     = absolute_url (MARKITUP_SKIN settings)
  /\ miu_skin (MarkItUpWidget.init attrs markitup_set (Some (String c s)) auto_preview0)
     = absolute_url (String c s)
  /\ miu_skin (MarkItUpWidget.init attrs markitup_set (Some "") auto_preview0)
     = absolute_url (MARKITUP_SKIN settings)
  /\ auto_preview (MarkItUpWidget.init attrs markitup_set markitup_skin None)
     = MARKITUP_AUTO_PREVIEW settings
  /\ auto_preview (MarkItUpWidget.init attrs markitup_set markitup_skin (Some b)) = b
  /\ js (MarkItUpWidget._media
           (MarkItUpWidget.init attrs markitup_set markitup_skin auto_preview0))
     = Media_add_paths []
         (match JQUERY_URL settings with
          | Some u => [absolute_url u]
          | None => []
          end ++
          [absolute_url "markitup/ajax_csrf.js";
           absolute_url "markitup/jquery.markitup.js";
           posixpath_join
             (absolute_url
                (MarkItUpWidget.py_or markitup_set (MARKITUP_SET settings)))
             "set.js"])%list
  /\ head (js (MarkItUpWidget._media
                 (MarkItUpWidget.init attrs markitup_set markitup_skin
                    auto_preview0)))
     = Some (match JQUERY_URL settings with
             | Some u => absolute_url u
             | None => absolute_url "markitup/ajax_csrf.js"
             end).
Proof.
  do 8 (split; [reflexivity |]). split; [apply media_js |].
  rewrite media_js. destruct (JQUERY_URL settings); apply Media_add_paths_head.
Qed.

End Media.

(** With [markitup_set=""] the setting is used, not the argument. *)
Lemma C4_empty_argument_ignored :
  miu_set (@MarkItUpWidget.init old_django None (Some "") None None)
  = "/static/markitup/sets/default"
  /\ miu_set (@MarkItUpWidget.init old_django None (Some "") None None)
     <> @absolute_url old_django "".
Proof. split; [reflexivity | discriminate]. Qed.



(** With the skin and the button set in one directory there is one
    stylesheet, not two. *)
Lemma C5_same_directory_one_stylesheet :
  css (@MarkItUpWidget._media old_django
         (@MarkItUpWidget.init old_django None (Some "/static/mk")
            (Some "/static/mk") None)) !! "screen"
  = Some ["/static/mk/style.css"].
Proof. vm_compute. reflexivity. Qed.

Example media_default_settings :
  css (@MarkItUpWidget._media old_django
         (@MarkItUpWidget.init old_django None None None None)) !! "screen"
  = Some ["/static/markitup/skins/simple/style.css";
          "/static/markitup/sets/default/style.css"].
Proof. vm_compute. reflexivity. Qed.

(** ** [BuildAttrsCompat] *)

Lemma dict_update_lookup (d e : gmap string string) (k : string) :
  dict_update d e !! k = match e !! k with
                         | Some v => Some v
                         | None => d !! k
                         end.
Proof.
  unfold dict_update. rewrite lookup_union.
  destruct (e !! k), (d !! k); reflexivity.
Qed.

Lemma dict_update_empty (d : gmap string string) : dict_update d ∅ = d.
Proof. unfold dict_update. apply (left_id_L ∅ (∪)). Qed.

Lemma Widget_build_attrs_old_merge (self_attrs kwargs : gmap string string)
    (extra_attrs : option (gmap string string)) :
  Django.Widget_build_attrs_old self_attrs extra_attrs kwargs
  = match extra_attrs with
    | Some e => dict_update (dict_update self_attrs kwargs) e
    | None => dict_update self_attrs kwargs
    end.
Proof.
  unfold Django.Widget_build_attrs_old. destruct extra_attrs as [e |]; [| reflexivity].
  case_bool_decide as He; [| reflexivity].
  subst e. now rewrite dict_update_empty.
Qed.

(** The hook of a subclass that adds one attribute. *)
Lemma marker_hook_lookup (marker v : string) (a : gmap string string) :
  <[marker := v]> a !! marker = Some v.
Proof. apply lookup_insert_eq. Qed.

(** C6. The default [build_attrs_extra] returns its argument; under
    either signature [build_attrs] is the hook applied to the
    framework's merged attributes; and a hook that inserts a marker
    attribute leaves the marker in the result of both. *)
Theorem C6_build_attrs_through_hook
    (cls : widget_class) (self : instance)
    (base_attrs kwargs : gmap string string)
    (extra_attrs : option (gmap string string)) (marker v : string) :
  BuildAttrsCompat.build_attrs_extra self base_attrs = base_attrs
  /\ BuildAttrsCompat.build_attrs_new cls self base_attrs extra_attrs
     = cls_build_attrs_extra cls self
         (Django.Widget_build_attrs_new base_attrs extra_attrs)
  /\ BuildAttrsCompat.build_attrs_old cls self extra_attrs kwargs
     = cls_build_attrs_extra cls self
         (Django.Widget_build_attrs_old (widget_attrs self) extra_attrs kwargs)
  /\ BuildAttrsCompat.build_attrs_new
       {| cls_build_attrs_extra := fun _ a => <[marker := v]> a |}
       self base_attrs extra_attrs !! marker = Some v
  /\ BuildAttrsCompat.build_attrs_old
       {| cls_build_attrs_extra := fun _ a => <[marker := v]> a |}
       self extra_attrs kwargs !! marker = Some v.
Proof.
  do 3 (split; [reflexivity |]).
  split; apply marker_hook_lookup.
Qed.

(** C7. [build_attrs_compat] takes the base attributes and the optional
    extra attributes under both signatures.  Under the new one it is
    [build_attrs]; under the old one it is the hook applied to the base
    attributes updated with the extra ones, or to the base attributes
    alone.  Under both, whatever the flag, the result is the hook
    applied to one merged mapping, which at every key holds the extra
    attribute when there is one and the base attribute otherwise. *)
Theorem C7_build_attrs_compat_agree `{Host}
    (cls : widget_class) (self : instance)
    (base_attrs e : gmap string string)
    (extra_attrs : option (gmap string string)) :
  BuildAttrsCompat.build_attrs_compat_new cls self base_attrs extra_attrs
  = BuildAttrsCompat.build_attrs_new cls self base_attrs extra_attrs
  /\ BuildAttrsCompat.build_attrs_compat_old cls self base_attrs (Some e)
     = cls_build_attrs_extra cls self (e ∪ base_attrs)
  /\ BuildAttrsCompat.build_attrs_compat_old cls self base_attrs None
     = cls_build_attrs_extra cls self base_attrs
  /\ BuildAttrsCompat.build_attrs_compat_new cls self base_attrs extra_attrs
     = BuildAttrsCompat.build_attrs_compat_old cls self base_attrs extra_attrs
  /\ BuildAttrsCompat.build_attrs_compat cls self base_attrs extra_attrs
     = (if new_style_build_attrs
        then BuildAttrsCompat.build_attrs_new cls self base_attrs extra_attrs
        else cls_build_attrs_extra cls self
               (match extra_attrs with
                | Some e' => e' ∪ base_attrs
                | None => base_attrs
                end))
  /\ exists merged : gmap string string,
       (forall k, merged !! k = match extra_attrs ≫= (.!! k) with
                                | Some v => Some v
                                | None => base_attrs !! k
                                end)
       /\ BuildAttrsCompat.build_attrs_compat_old cls self base_attrs extra_attrs
          = cls_build_attrs_extra cls self merged
       /\ BuildAttrsCompat.build_attrs_compat_new cls self base_attrs extra_attrs
          = cls_build_attrs_extra cls self merged
       /\ BuildAttrsCompat.build_attrs_compat cls self base_attrs extra_attrs
          = cls_build_attrs_extra cls self merged.
Proof.
  do 4 (split; [reflexivity |]). split.
  { unfold BuildAttrsCompat.build_attrs_compat.
    destruct new_style_build_attrs; reflexivity. }
  exists (match extra_attrs with
          | Some e' => dict_update base_attrs e'
          | None => base_attrs
          end).
  split; [| split; [| split]].
  - intros k. destruct extra_attrs as [e' |]; simpl; [| reflexivity].
    apply dict_update_lookup.
  - reflexivity.
  - reflexivity.
  - unfold BuildAttrsCompat.build_attrs_compat.
    destruct new_style_build_attrs; reflexivity.
Qed.

Example build_attrs_compat_marker :
  @BuildAttrsCompat.build_attrs_compat old_django
    {| cls_build_attrs_extra := fun _ a => <[ "data-marker" := "1" ]> a |}
    (@MarkItUpWidget.init old_django None None None None)
    {[ "id" := "id_body" ]} (Some {[ "rows" := "3" ]})
  = {[ "data-marker" := "1"; "id" := "id_body"; "rows" := "3" ]}.
Proof. vm_compute. reflexivity. Qed.

(** ** [MarkItUpWidget.render] *)

Section Render.
Context `{Host}.

Lemma render_unfold (cls : widget_class) (self : instance) (name : string)
    (v : value) (attrs : option (gmap string string)) (t : trace) :
  MarkItUpWidget.render cls self name v attrs t
  = match MarkupInput.render
            (fun n v' a => lift (Textarea_render cls self n v' a))
            name v attrs t with
    | (Ok html, t') =>
        match MarkItUpWidget.editor_markup cls self name attrs with
        | Ok editor => (Ok (mark_safe (html ++ editor)), t')
        | Raise e => (Raise e, t')
        end
    | (Raise e, t') => (Raise e, t')
    end.
Proof.
  unfold MarkItUpWidget.render, bind at 1.
  destruct (MarkupInput.render _ name v attrs t) as [[html | e] t']; [| reflexivity].
  rewrite bind_lift.
  destruct (MarkItUpWidget.editor_markup cls self name attrs); reflexivity.
Qed.

(** Under the new signature the keyword call cannot be bound. *)
Lemma editor_markup_new_style (cls : widget_class) (self : instance)
    (name : string) (attrs : option (gmap string string)) :
  new_style_build_attrs = true ->
  MarkItUpWidget.editor_markup cls self name attrs
  = Raise (TypeError "build_attrs() got an unexpected keyword argument 'name'").
Proof.
  intros Hnew. unfold MarkItUpWidget.editor_markup,
    BuildAttrsCompat.call_build_attrs_name.
  now rewrite Hnew.
Qed.

Lemma editor_markup_old_style (cls : widget_class) (self : instance)
    (name : string) (attrs : option (gmap string string)) :
  new_style_build_attrs = false ->
  MarkItUpWidget.editor_markup cls self name attrs
  = result_bind MarkItUpWidget.resolve_preview_url (fun url =>
    result_bind
      (getitem
         (BuildAttrsCompat.build_attrs_compat_old cls self
            (BuildAttrsCompat.build_attrs_old cls self attrs {[ "name" := name ]})
            attrs) "id")
      (fun id =>
         render_to_string "markitup/editor.html"
           {| textarea_id := id;
              AUTO_PREVIEW := auto_preview self;
              preview_url := url |})).
Proof.
  intros Hold. unfold MarkItUpWidget.editor_markup,
    BuildAttrsCompat.call_build_attrs_name, BuildAttrsCompat.build_attrs_compat.
  now rewrite Hold.
Qed.

Lemma getitem_Some (d : gmap string string) (k v : string) :
  d !! k = Some v -> getitem d k = Ok v.
Proof. intros Hk. unfold getitem. now rewrite Hk. Qed.

Lemma getitem_None (d : gmap string string) (k : string) :
  d !! k = None -> getitem d k = Raise (KeyError k).
Proof. intros Hk. unfold getitem. now rewrite Hk. Qed.

Lemma resolve_preview_url_no_match :
  reverse "markitup_preview" = Raise NoReverseMatch ->
  MarkItUpWidget.resolve_preview_url = Ok "".
Proof. intros Hr. unfold MarkItUpWidget.resolve_preview_url. now rewrite Hr. Qed.

Lemma resolve_preview_url_match (url : string) :
  reverse "markitup_preview" = Ok url ->
  MarkItUpWidget.resolve_preview_url = Ok url.
Proof. intros Hr. unfold MarkItUpWidget.resolve_preview_url. now rewrite Hr. Qed.

(** The successful run of [render] under the old signature. *)
Lemma render_old_style_ok (cls : widget_class) (self : instance)
    (name : string) (v : value) (attrs : option (gmap string string))
    (t t' : trace) (html id url editor : string) :
  new_style_build_attrs = false ->
  MarkupInput.render (fun n v' a => lift (Textarea_render cls self n v' a))
    name v attrs t = (Ok html, t') ->
  BuildAttrsCompat.build_attrs_compat_old cls self
    (BuildAttrsCompat.build_attrs_old cls self attrs {[ "name" := name ]})
    attrs !! "id" = Some id ->
  MarkItUpWidget.resolve_preview_url = Ok url ->
  render_to_string "markitup/editor.html"
    {| textarea_id := id; AUTO_PREVIEW := auto_preview self;
       preview_url := url |} = Ok editor ->
  MarkItUpWidget.render cls self name v attrs t
  = (Ok (mark_safe (html ++ editor)), t').
Proof.
  intros Hold Hbase Hid Hurl Htpl.
  rewrite render_unfold, Hbase, (editor_markup_old_style _ _ _ _ Hold), Hurl.
  simpl. rewrite (getitem_Some _ _ _ Hid). simpl. now rewrite Htpl.
Qed.

(** Without an [id] among the merged attributes [render] raises
    [KeyError], once the text-area is rendered and the route looked up. *)
Lemma render_old_style_no_id (cls : widget_class) (self : instance)
    (name : string) (v : value) (attrs : option (gmap string string))
    (t t' : trace) (html url : string) :
  new_style_build_attrs = false ->
  MarkupInput.render (fun n v' a => lift (Textarea_render cls self n v' a))
    name v attrs t = (Ok html, t') ->
  BuildAttrsCompat.build_attrs_compat_old cls self
    (BuildAttrsCompat.build_attrs_old cls self attrs {[ "name" := name ]})
    attrs !! "id" = None ->
  MarkItUpWidget.resolve_preview_url = Ok url ->
  MarkItUpWidget.render cls self name v attrs t = (Raise (KeyError "id"), t').
Proof.
  intros Hold Hbase Hid Hurl.
  rewrite render_unfold, Hbase, (editor_markup_old_style _ _ _ _ Hold), Hurl.
  simpl. now rewrite (getitem_None _ _ Hid).
Qed.

(** Under the new signature [render] raises [TypeError] as soon as the
    text-area is rendered. *)
Lemma render_new_style_raises (cls : widget_class) (self : instance)
    (name : string) (v : value) (attrs : option (gmap string string))
    (t t' : trace) (html : string) :
  new_style_build_attrs = true ->
  MarkupInput.render (fun n v' a => lift (Textarea_render cls self n v' a))
    name v attrs t = (Ok html, t') ->
  MarkItUpWidget.render cls self name v attrs t
  = (Raise (TypeError "build_attrs() got an unexpected keyword argument 'name'"), t').
Proof.
  intros Hnew Hbase.
  now rewrite render_unfold, Hbase, (editor_markup_new_style _ _ _ _ Hnew).
Qed.

(** C1, as the code has it.  Under the old [build_attrs] signature, when
    the text-area rendering of the name, value and attributes returns,
    the merged attributes have an [id], the preview route resolves (to
    its URL, or to the empty text when there is no match) and the editor
    template renders, [render] returns the text-area rendering followed
    by the editor markup made from that [id], the widget's auto-preview
    flag and the resolved URL, marked safe. *)
Theorem C1_render_textarea_then_editor (cls : widget_class) (self : instance)
    (name : string) (v : value) (attrs : option (gmap string string))
    (t t' : trace) (html id url editor : string) :
  new_style_build_attrs = false ->
  MarkupInput.render (fun n v' a => lift (Textarea_render cls self n v' a))
    name v attrs t = (Ok html, t') ->
  BuildAttrsCompat.build_attrs_compat_old cls self
    (BuildAttrsCompat.build_attrs_old cls self attrs {[ "name" := name ]})
    attrs !! "id" = Some id ->
  result_try (reverse "markitup_preview") is_NoReverseMatch (Ok "") = Ok url ->
  render_to_string "markitup/editor.html"
    {| textarea_id := id; AUTO_PREVIEW := auto_preview self;
       preview_url := url |} = Ok editor ->
  MarkItUpWidget.render cls self name v attrs t
  = (Ok (mark_safe (html ++ editor)), t').
Proof. apply render_old_style_ok. Qed.

End Render.

(** *** [render] on the example deployment *)

Example render_with_id :
  @MarkItUpWidget.render old_django BuildAttrsCompat.default_class
    (@MarkItUpWidget.init old_django None None None None)
    "body" (VObj "<Markup>" (HasAttr (VStr "*hello*")))
    (Some {[ "id" := "id_body" ]}) []
  = (Ok (mark_safe
           ("<textarea name=body>*hello*</textarea>" ++
            "<script>miu(id_body,/markitup/preview/)</script>")),
     [GetAttr (VObj "<Markup>" (HasAttr (VStr "*hello*"))) "raw"]).
Proof. vm_compute. reflexivity. Qed.

Example render_new_style :
  @MarkItUpWidget.render new_django BuildAttrsCompat.default_class
    (@MarkItUpWidget.init new_django None None None None)
    "body" (VStr "hello") (Some {[ "id" := "id_body" ]}) []
  = (Raise (TypeError "build_attrs() got an unexpected keyword argument 'name'"),
     [GetAttr (VStr "hello") "raw"]).
Proof. vm_compute. reflexivity. Qed.

(** With no [id] in the widget's or the call's attributes, [render]
    raises [KeyError] instead of returning markup. *)
Lemma C1_render_without_id_raises :
  @MarkItUpWidget.render old_django BuildAttrsCompat.default_class
    (@MarkItUpWidget.init old_django None None None None)
    "body" (VStr "hello") None []
  = (Raise (KeyError "id"), [GetAttr (VStr "hello") "raw"]).
Proof. vm_compute. reflexivity. Qed.

Lemma C1_render_textarea_then_editor_witness :
  @MarkItUpWidget.render old_django BuildAttrsCompat.default_class
    (@MarkItUpWidget.init old_django None None None None)
    "body" (VStr "hello") (Some {[ "id" := "id_body" ]}) []
  = (Ok (mark_safe
           ("<textarea name=body>hello</textarea>" ++
            "<script>miu(id_body,/markitup/preview/)</script>")),
     [GetAttr (VStr "hello") "raw"]).
Proof.
  apply (@C1_render_textarea_then_editor old_django
           BuildAttrsCompat.default_class
           (@MarkItUpWidget.init old_django None None None None)
           "body" (VStr "hello") (Some {[ "id" := "id_body" ]})
           [] [GetAttr (VStr "hello") "raw"]
           "<textarea name=body>hello</textarea>" "id_body"
           "/markitup/preview/"
           "<script>miu(id_body,/markitup/preview/)</script>").
  - reflexivity.
  - reflexivity.
  - vm_compute. reflexivity.
  - reflexivity.
  - reflexivity.
Defined.

(** C3. When [reverse] finds no match for the preview route, the lookup
    yields the empty text, the editor template is given exactly the
    empty preview URL, and [render] does on every input what it does
    when the route resolves to the empty text: the missing route fails
    no call.  In particular [render] returns normally, with that markup,
    whenever the text-area rendering returns, the merged attributes have
    an [id] and the editor template renders. *)
Theorem C3_no_route_empty_preview_url (H : Host)
    (cls : widget_class) (self : instance)
    (name : string) (v : value) (attrs : option (gmap string string))
    (t : trace) :
  @reverse H "markitup_preview" = Raise NoReverseMatch ->
  @MarkItUpWidget.resolve_preview_url H = Ok ""
  /\ @MarkItUpWidget.render H cls self name v attrs t
     = @MarkItUpWidget.render (with_reverse H (fun _ => Ok ""))
         cls self name v attrs t
  /\ @MarkItUpWidget.editor_markup H cls self name attrs
     = result_bind (@BuildAttrsCompat.call_build_attrs_name H cls self attrs name)
         (fun base_attrs =>
            result_bind
              (getitem
                 (@BuildAttrsCompat.build_attrs_compat H cls self base_attrs attrs)
                 "id")
              (fun id =>
                 @render_to_string H "markitup/editor.html"
                   {| textarea_id := id; AUTO_PREVIEW := auto_preview self;
                      preview_url := "" |}))
  /\ (forall (t' : trace) (html id editor : string),
        @new_style_build_attrs H = false ->
        MarkupInput.render
          (fun n v' a => lift (@Textarea_render H cls self n v' a))
          name v attrs t = (Ok html, t') ->
        BuildAttrsCompat.build_attrs_compat_old cls self
          (BuildAttrsCompat.build_attrs_old cls self attrs {[ "name" := name ]})
          attrs !! "id" = Some id ->
        @render_to_string H "markitup/editor.html"
          {| textarea_id := id; AUTO_PREVIEW := auto_preview self;
             preview_url := "" |} = Ok editor ->
        @MarkItUpWidget.render H cls self name v attrs t
        = (Ok (mark_safe (html ++ editor)), t')).
Proof.
  intros Hr.
  pose proof (@resolve_preview_url_no_match H Hr) as Hurl.
  assert (Heditor :
    @MarkItUpWidget.editor_markup H cls self name attrs
    = result_bind (@BuildAttrsCompat.call_build_attrs_name H cls self attrs name)
        (fun base_attrs =>
           result_bind
             (getitem
                (@BuildAttrsCompat.build_attrs_compat H cls self base_attrs attrs)
                "id")
             (fun id =>
                @render_to_string H "markitup/editor.html"
                  {| textarea_id := id; AUTO_PREVIEW := auto_preview self;
                     preview_url := "" |}))).
  { unfold MarkItUpWidget.editor_markup. now rewrite Hurl. }
  split; [exact Hurl |]. split; [| split; [exact Heditor |]].
  - rewrite !render_unfold, Heditor. reflexivity.
  - intros t' html id editor Hold Hbase Hid Htpl.
    now apply (@render_old_style_ok H cls self name v attrs t t' html id ""
                 editor).
Qed.

Lemma C3_no_route_empty_preview_url_witness :
  @MarkItUpWidget.resolve_preview_url old_django_no_route = Ok ""
  /\ @MarkItUpWidget.render old_django_no_route BuildAttrsCompat.default_class
       (@MarkItUpWidget.init old_django_no_route None None None None)
       "body" (VStr "hello") (Some {[ "id" := "id_body" ]}) []
     = (Ok (mark_safe
              ("<textarea name=body>hello</textarea>" ++
               "<script>miu(id_body,)</script>")),
        [GetAttr (VStr "hello") "raw"]).
Proof.
  destruct (C3_no_route_empty_preview_url old_django_no_route
              BuildAttrsCompat.default_class
              (@MarkItUpWidget.init old_django_no_route None None None None)
              "body" (VStr "hello") (Some {[ "id" := "id_body" ]}) []
              eq_refl) as (Hurl & _ & _ & Hreturns).
  split; [exact Hurl |].
  apply (Hreturns [GetAttr (VStr "hello") "raw"]
           "<textarea name=body>hello</textarea>" "id_body"
           "<script>miu(id_body,)</script>").
  - reflexivity.
  - reflexivity.
  - vm_compute. reflexivity.
  - reflexivity.
Defined.

(** The route is missing and so is the [id]: [render] raises the
    [KeyError] it raises with the route present. *)
Example render_no_route_no_id :
  @MarkItUpWidget.render old_django_no_route BuildAttrsCompat.default_class
    (@MarkItUpWidget.init old_django_no_route None None None None)
    "body" (VStr "hello") None []
  = (Raise (KeyError "id"), [GetAttr (VStr "hello") "raw"]).
Proof. vm_compute. reflexivity. Qed.

(** ** [AdminMarkItUpWidget] *)

Lemma Textarea_init_lookup (attrs : option (gmap string string)) (k : string) :
  Django.Textarea_init attrs !! k
  = match attrs ≫= (.!! k) with
    | Some v => Some v
    | None => ({[ "cols" := "40"; "rows" := "10" ]} : gmap string string) !! k
    end.
Proof.
  unfold Django.Textarea_init, Django.Widget_init.
  destruct attrs as [a |]; simpl; [| reflexivity].
  apply dict_update_lookup.
Qed.

Lemma AdminTextareaWidget_init_lookup (attrs : option (gmap string string))
    (k : string) :
  k <> "class" ->
  Django.AdminTextareaWidget_init attrs !! k = Django.Textarea_init attrs !! k.
Proof.
  intros Hk. unfold Django.AdminTextareaWidget_init.
  rewrite !Textarea_init_lookup. destruct attrs as [a |]; simpl.
  - rewrite dict_update_lookup. destruct (a !! k); [reflexivity |].
    now rewrite lookup_singleton_ne.
  - now rewrite lookup_singleton_ne.
Qed.

Lemma AdminTextareaWidget_init_class (attrs : option (gmap string string)) :
  Django.AdminTextareaWidget_init attrs !! "class"
  = Some (default "vLargeTextField" (attrs ≫= (.!! "class"))).
Proof.
  unfold Django.AdminTextareaWidget_init. rewrite Textarea_init_lookup.
  destruct attrs as [a |]; simpl.
  - rewrite dict_update_lookup. destruct (a !! "class"); [reflexivity |].
    now rewrite lookup_singleton_eq.
  - now rewrite lookup_singleton_eq.
Qed.

(** With the default hook the merged attributes at a key depend on the
    widget's own attributes at that key only. *)
Lemma final_attrs_lookup_congr (self1 self2 : instance) (name k : string)
    (attrs : option (gmap string string)) :
  widget_attrs self1 !! k = widget_attrs self2 !! k ->
  BuildAttrsCompat.build_attrs_compat_old BuildAttrsCompat.default_class self1
    (BuildAttrsCompat.build_attrs_old BuildAttrsCompat.default_class self1
       attrs {[ "name" := name ]}) attrs !! k
  = BuildAttrsCompat.build_attrs_compat_old BuildAttrsCompat.default_class self2
      (BuildAttrsCompat.build_attrs_old BuildAttrsCompat.default_class self2
         attrs {[ "name" := name ]}) attrs !! k.
Proof.
  intros Hk.
  unfold BuildAttrsCompat.build_attrs_compat_old, BuildAttrsCompat.build_attrs_old.
  simpl. unfold BuildAttrsCompat.build_attrs_extra.
  rewrite !Widget_build_attrs_old_merge.
  destruct attrs as [a |]; rewrite ?dict_update_lookup, Hk; reflexivity.
Qed.

Lemma editor_markup_congr `{Host} (self1 self2 : instance) (name : string)
    (attrs : option (gmap string string)) :
  widget_attrs self1 !! "id" = widget_attrs self2 !! "id" ->
  auto_preview self1 = auto_preview self2 ->
  MarkItUpWidget.editor_markup BuildAttrsCompat.default_class self1 name attrs
  = MarkItUpWidget.editor_markup BuildAttrsCompat.default_class self2 name attrs.
Proof.
  intros Hid Hap.
  destruct new_style_build_attrs eqn:Hflag.
  - now rewrite !editor_markup_new_style.
  - rewrite !editor_markup_old_style by assumption.
    unfold getitem.
    now rewrite (final_attrs_lookup_congr self1 self2 name "id" attrs Hid), Hap.
Qed.

(** C8. Built from the same arguments, the admin widget and
    [MarkItUpWidget] give the same editor markup for every name and
    attribute mapping; [render] of the admin widget is the inherited
    [render], its text-area followed by that markup; and the two
    instances agree on every field and attribute but [class], which the
    admin widget sets. *)
Theorem C8_admin_same_editor_markup `{Host}
    (attrs0 : option (gmap string string))
    (markitup_set markitup_skin : option string) (auto_preview0 : option bool)
    (name : string) (v : value) (attrs : option (gmap string string))
    (t : trace) (k : string) :
  k <> "class" ->
  MarkItUpWidget.editor_markup BuildAttrsCompat.default_class
    (AdminMarkItUpWidget.init attrs0 markitup_set markitup_skin auto_preview0)
    name attrs
  = MarkItUpWidget.editor_markup BuildAttrsCompat.default_class
      (MarkItUpWidget.init attrs0 markitup_set markitup_skin auto_preview0)
      name attrs
  /\ AdminMarkItUpWidget.render BuildAttrsCompat.default_class
       (AdminMarkItUpWidget.init attrs0 markitup_set markitup_skin auto_preview0)
       name v attrs t
     = bind (MarkupInput.render
               (fun n v' a =>
                  lift (Textarea_render BuildAttrsCompat.default_class
                          (AdminMarkItUpWidget.init attrs0 markitup_set
                             markitup_skin auto_preview0) n v' a))
               name v attrs)
         (fun html =>
            bind (lift (MarkItUpWidget.editor_markup
                          BuildAttrsCompat.default_class
                          (MarkItUpWidget.init attrs0 markitup_set
                             markitup_skin auto_preview0) name attrs))
              (fun editor => ret (mark_safe (html ++ editor)))) t
  /\ widget_attrs
       (AdminMarkItUpWidget.init attrs0 markitup_set markitup_skin auto_preview0)
     !! k
     = widget_attrs
         (MarkItUpWidget.init attrs0 markitup_set markitup_skin auto_preview0)
       !! k
  /\ widget_attrs
       (AdminMarkItUpWidget.init attrs0 markitup_set markitup_skin auto_preview0)
     !! "class"
     = Some (default "vLargeTextField" (attrs0 ≫= (.!! "class")))
  /\ miu_set (AdminMarkItUpWidget.init attrs0 markitup_set markitup_skin auto_preview0)
     = miu_set (MarkItUpWidget.init attrs0 markitup_set markitup_skin auto_preview0)
  /\ miu_skin (AdminMarkItUpWidget.init attrs0 markitup_set markitup_skin auto_preview0)
     = miu_skin (MarkItUpWidget.init attrs0 markitup_set markitup_skin auto_preview0)
  /\ auto_preview (AdminMarkItUpWidget.init attrs0 markitup_set markitup_skin auto_preview0)
     = auto_preview (MarkItUpWidget.init attrs0 markitup_set markitup_skin auto_preview0).
Proof.
  intros Hk.
  assert (Heditor :
    MarkItUpWidget.editor_markup BuildAttrsCompat.default_class
      (AdminMarkItUpWidget.init attrs0 markitup_set markitup_skin auto_preview0)
      name attrs
    = MarkItUpWidget.editor_markup BuildAttrsCompat.default_class
        (MarkItUpWidget.init attrs0 markitup_set markitup_skin auto_preview0)
        name attrs).
  { apply editor_markup_congr; [| reflexivity].
    simpl. now apply AdminTextareaWidget_init_lookup. }
  split; [exact Heditor |].
  split.
  { unfold AdminMarkItUpWidget.render, MarkItUpWidget.render.
    now rewrite Heditor. }
  split; [simpl; now apply AdminTextareaWidget_init_lookup |].
  split; [simpl; apply AdminTextareaWidget_init_class |].
  repeat split.
Qed.

Lemma C8_admin_same_editor_markup_witness :
  @MarkItUpWidget.editor_markup old_django BuildAttrsCompat.default_class
    (@AdminMarkItUpWidget.init old_django None None None None)
    "body" (Some {[ "id" := "id_body" ]})
  = Ok "<script>miu(id_body,/markitup/preview/)</script>"
  /\ @MarkItUpWidget.editor_markup old_django BuildAttrsCompat.default_class
       (@MarkItUpWidget.init old_django None None None None)
       "body" (Some {[ "id" := "id_body" ]})
     = Ok "<script>miu(id_body,/markitup/preview/)</script>".
Proof.
  pose proof (@C8_admin_same_editor_markup old_django None None None None
                "body" (VStr "hello") (Some {[ "id" := "id_body" ]}) [] "id")
    as Hadmin.
  destruct Hadmin as [Heditor _]; [discriminate |].
  split; [rewrite Heditor |]; vm_compute; reflexivity.
Defined.

(** ** Further properties: paths and the media bundle *)

Lemma string_app_assoc (a b c : string) : (a ++ b) ++ c = a ++ b ++ c.
Proof.
  induction a as [| x a IH]; [reflexivity |].
  change (String x ((a ++ b) ++ c) = String x (a ++ b ++ c)).
  now f_equal.
Qed.

Lemma endswith_sep_app_sep (a : string) : endswith_sep (a ++ "/") = true.
Proof.
  induction a as [| x a IH]; [reflexivity |].
  change (endswith_sep (String x (a ++ "/")) = true).
  destruct a as [| y a']; [reflexivity |].
  exact IH.
Qed.


(** The joined path ends with the last component, and what stands before
    it is empty or ends with a separator. *)
Lemma posixpath_join_suffix (a b : string) :
  exists p, posixpath_join a b = p ++ b
            /\ (p = "" \/ endswith_sep p = true).
Proof.
  unfold posixpath_join.
  destruct (startswith_sep b); [exists ""; auto |].
  destruct (is_empty a) eqn:Ha.
  { destruct a; [| discriminate]. exists ""; auto. }
  destruct (endswith_sep a) eqn:He; simpl.
  - exists a; auto.
  - exists (a ++ "/"). split; [now rewrite string_app_assoc |].
    right. apply endswith_sep_app_sep.
Qed.



(** X2. The [screen] stylesheets are not empty and each ends with
    [style.css], some script ends with [set.js], and each of these file
    names starts the URL or follows a separator: a file name is never
    glued to the last directory name, whatever the configured
    directories. *)
Theorem X2_media_file_names `{Host} (self : instance) :
  exists l p3,
    css (MarkItUpWidget._media self) !! "screen" = Some l
    /\ l <> []
    /\ (forall u, u ∈ l ->
          exists p, u = p ++ "style.css" /\ (p = "" \/ endswith_sep p = true))
    /\ p3 ++ "set.js" ∈ js (MarkItUpWidget._media self)
    /\ (p3 = "" \/ endswith_sep p3 = true).
Proof.
  destruct (posixpath_join_suffix (miu_skin self) "style.css") as (p1 & E1 & H1).
  destruct (posixpath_join_suffix (miu_set self) "style.css") as (p2 & E2 & H2).
  destruct (posixpath_join_suffix (miu_set self) "set.js") as (p3 & E3 & H3).
  eexists _, p3. split; [| split; [| split; [| split]]].
  - rewrite media_css. apply lookup_singleton_eq.
  - destruct (decide _); discriminate.
  - intros u Hu. destruct (decide _) as [Heq | Hne].
    + apply list_elem_of_singleton in Hu as ->. eauto.
    + apply elem_of_cons in Hu as [-> | Hu]; [eauto |].
      apply list_elem_of_singleton in Hu as ->. eauto.
  - rewrite media_js, <- E3. apply Media_add_paths_elem. right.
    apply elem_of_app. right. rewrite !elem_of_cons. auto.
  - exact H3.
Qed.

(** ** Further properties: attribute merging *)

(** The attributes [render] ends with under the old signature and the
    default hook, key by key. *)
Lemma final_attrs_lookup (self : instance) (name k : string)
    (attrs : option (gmap string string)) :
  BuildAttrsCompat.build_attrs_compat_old BuildAttrsCompat.default_class self
    (BuildAttrsCompat.build_attrs_old BuildAttrsCompat.default_class self
       attrs {[ "name" := name ]}) attrs !! k
  = match attrs ≫= (.!! k) with
    | Some v => Some v
    | None => if decide (k = "name") then Some name else widget_attrs self !! k
    end.
Proof.
  unfold BuildAttrsCompat.build_attrs_compat_old, BuildAttrsCompat.build_attrs_old.
  simpl. unfold BuildAttrsCompat.build_attrs_extra.
  rewrite Widget_build_attrs_old_merge.
  assert (Hkw : dict_update (widget_attrs self) {[ "name" := name ]} !! k
                = if decide (k = "name") then Some name
                  else widget_attrs self !! k).
  { rewrite dict_update_lookup. destruct (decide (k = "name")) as [-> | Hne].
    - now rewrite lookup_singleton_eq.
    - now rewrite lookup_singleton_ne by congruence. }
  destruct attrs as [a |]; simpl.
  - rewrite !(dict_update_lookup _ a). destruct (a !! k); [reflexivity | exact Hkw].
  - exact Hkw.
Qed.

(** X3. Precedence among the attributes [render] merges (old signature,
    default hook): an attribute given in the call wins; otherwise [name]
    is the field name, whatever the widget's own attributes say; any
    other key comes from the widget's own attributes. *)
Theorem X3_final_attrs_precedence (self : instance) (name k : string)
    (attrs : option (gmap string string)) :
  BuildAttrsCompat.build_attrs_compat_old BuildAttrsCompat.default_class self
    (BuildAttrsCompat.build_attrs_old BuildAttrsCompat.default_class self
       attrs {[ "name" := name ]}) attrs !! k
  = match attrs ≫= (.!! k) with
    | Some v => Some v
    | None => if decide (k = "name") then Some name else widget_attrs self !! k
    end.
Proof. apply final_attrs_lookup. Qed.

(** X4. With the default hook the second merge in [render] changes
    nothing: updating the built attributes with the call's attributes
    again gives the built attributes back. *)
Theorem X4_second_merge_is_identity (self : instance)
    (kwargs : gmap string string) (attrs : option (gmap string string)) :
  BuildAttrsCompat.build_attrs_compat_old BuildAttrsCompat.default_class self
    (BuildAttrsCompat.build_attrs_old BuildAttrsCompat.default_class self
       attrs kwargs) attrs
  = BuildAttrsCompat.build_attrs_old BuildAttrsCompat.default_class self
      attrs kwargs.
Proof.
  unfold BuildAttrsCompat.build_attrs_compat_old, BuildAttrsCompat.build_attrs_old.
  simpl. unfold BuildAttrsCompat.build_attrs_extra.
  rewrite Widget_build_attrs_old_merge.
  destruct attrs as [a |]; [| reflexivity].
  apply map_eq. intros k. rewrite !dict_update_lookup.
  destruct (a !! k); reflexivity.
Qed.

(** X5. With the default hook [build_attrs_compat] gives, under either
    signature and whatever the widget's own attributes, the extra
    attribute at a key when there is one and the base attribute
    otherwise. *)
Theorem X5_build_attrs_compat_lookup `{Host} (self : instance)
    (base_attrs : gmap string string)
    (extra_attrs : option (gmap string string)) (k : string) :
  BuildAttrsCompat.build_attrs_compat BuildAttrsCompat.default_class self
    base_attrs extra_attrs !! k
  = match extra_attrs ≫= (.!! k) with
    | Some v => Some v
    | None => base_attrs !! k
    end.
Proof.
  unfold BuildAttrsCompat.build_attrs_compat,
    BuildAttrsCompat.build_attrs_compat_new, BuildAttrsCompat.build_attrs_new,
    BuildAttrsCompat.build_attrs_compat_old, Django.Widget_build_attrs_new.
  simpl. unfold BuildAttrsCompat.build_attrs_extra.
  destruct new_style_build_attrs, extra_attrs as [e |]; simpl;
    rewrite ?dict_update_lookup; reflexivity.
Qed.

(** X6. For a widget built by either constructor, the element id among
    the attributes [render] merges (old signature, default hook) is the
    [id] given in the call, and otherwise the [id] given to the
    constructor; neither the defaults of the text-area nor the admin
    style class supply one. *)
Theorem X6_final_id_source `{Host}
    (attrs0 attrs : option (gmap string string))
    (markitup_set markitup_skin : option string) (auto_preview0 : option bool)
    (name : string) :
  BuildAttrsCompat.build_attrs_compat_old BuildAttrsCompat.default_class
    (MarkItUpWidget.init attrs0 markitup_set markitup_skin auto_preview0)
    (BuildAttrsCompat.build_attrs_old BuildAttrsCompat.default_class
       (MarkItUpWidget.init attrs0 markitup_set markitup_skin auto_preview0)
       attrs {[ "name" := name ]}) attrs !! "id"
  = match attrs ≫= (.!! "id") with
    | Some v => Some v
    | None => attrs0 ≫= (.!! "id")
    end
  /\ BuildAttrsCompat.build_attrs_compat_old BuildAttrsCompat.default_class
       (AdminMarkItUpWidget.init attrs0 markitup_set markitup_skin auto_preview0)
       (BuildAttrsCompat.build_attrs_old BuildAttrsCompat.default_class
          (AdminMarkItUpWidget.init attrs0 markitup_set markitup_skin
             auto_preview0)
          attrs {[ "name" := name ]}) attrs !! "id"
     = match attrs ≫= (.!! "id") with
       | Some v => Some v
       | None => attrs0 ≫= (.!! "id")
       end.
Proof.
  assert (Hown : Django.Textarea_init attrs0 !! "id" = attrs0 ≫= (.!! "id")).
  { rewrite Textarea_init_lookup. now destruct (attrs0 ≫= (.!! "id")). }
  split; rewrite final_attrs_lookup; simpl.
  - now rewrite Hown.
  - rewrite AdminTextareaWidget_init_lookup by discriminate. now rewrite Hown.
Qed.

(** ** Further properties: what [render] raises and when it returns *)

(** X7. Reading [raw] happens exactly once for a value that is not
    [None] and never for [None]; the events recorded before are kept,
    whether the read succeeds or raises. *)
Theorem X7_unwrap_raw_reads_once (v : value) (t : trace) :
  snd (MarkupInput.unwrap_raw v t)
  = (t ++ (if is_None v then [] else [GetAttr v "raw"]))%list.
Proof.
  destruct v as [| s | repr [| r | e]]; simpl.
  - now rewrite app_nil_r.
  - reflexivity.
  - reflexivity.
  - reflexivity.
  - now rewrite unwrap_raw_getter.
Qed.

(** X8. When the [raw] getter raises anything but [AttributeError],
    [MarkupInput.render] raises it and the next [render] is not run: the
    outcome is the same for every next [render]. *)
Theorem X8_getter_error_propagates
    (super_render : string -> value -> option (gmap string string) -> M string)
    (name repr : string) (e : exn)
    (attrs : option (gmap string string)) (t : trace) :
  is_AttributeError e = false ->
  MarkupInput.render super_render name (VObj repr (GetterRaises e)) attrs t
  = (Raise e, (t ++ [GetAttr (VObj repr (GetterRaises e)) "raw"])%list).
Proof. apply render_getter_other_error. Qed.

Lemma X8_getter_error_propagates_witness :
  MarkupInput.render (fun _ _ _ => ret "<textarea></textarea>") "body"
    (VObj "<Markup>" (GetterRaises (OtherError "ValueError"))) None []
  = (Raise (OtherError "ValueError"),
     [GetAttr (VObj "<Markup>" (GetterRaises (OtherError "ValueError"))) "raw"]).
Proof.
  apply (X8_getter_error_propagates (fun _ _ _ => ret "<textarea></textarea>")
           "body" "<Markup>" (OtherError "ValueError") None []).
  reflexivity.
Defined.

(** X9. The preview URL lookup never ends in [NoReverseMatch]: it is
    the URL [reverse] returns, the empty text when there is no match,
    and any other exception of [reverse] unchanged. *)
Theorem X9_resolve_preview_url_cases `{Host} :
  MarkItUpWidget.resolve_preview_url <> Raise NoReverseMatch
  /\ MarkItUpWidget.resolve_preview_url
     = match reverse "markitup_preview" with
       | Ok url => Ok url
       | Raise NoReverseMatch => Ok ""
       | Raise e => Raise e
       end.
Proof.
  unfold MarkItUpWidget.resolve_preview_url, result_try.
  destruct (reverse "markitup_preview") as [url | []]; simpl; split;
    congruence.
Qed.

Section RenderErrors.
Context `{Host}.

(** X10. Under the new [build_attrs] signature [render] returns for no
    input at all: it raises what the text-area rendering raised, or,
    when that returned, the [TypeError] of the call
    [self.build_attrs(attrs, name=name)]. *)
Theorem X10_render_new_style_never_returns (cls : widget_class)
    (self : instance) (name : string) (v : value)
    (attrs : option (gmap string string)) (t : trace) :
  new_style_build_attrs = true ->
  MarkItUpWidget.render cls self name v attrs t
  = match MarkupInput.render
            (fun n v' a => lift (Textarea_render cls self n v' a))
            name v attrs t with
    | (Ok _, t') =>
        (Raise (TypeError
                  "build_attrs() got an unexpected keyword argument 'name'"),
         t')
    | (Raise e, t') => (Raise e, t')
    end.
Proof.
  intros Hnew. rewrite render_unfold.
  destruct (MarkupInput.render _ name v attrs t) as [[html | e] t'];
    [| reflexivity].
  now rewrite (editor_markup_new_style _ _ _ _ Hnew).
Qed.

(** X11. When [render] returns, the signature is the old one, the
    text-area rendering returned, the merged attributes have an [id],
    the preview URL was resolved, the editor template rendered, and the
    output is the text-area followed by the editor markup. *)
Theorem X11_render_returns_only_if (cls : widget_class) (self : instance)
    (name : string) (v : value) (attrs : option (gmap string string))
    (t t' : trace) (out : safestring) :
  MarkItUpWidget.render cls self name v attrs t = (Ok out, t') ->
  new_style_build_attrs = false
  /\ exists html id url editor,
       MarkupInput.render
         (fun n v' a => lift (Textarea_render cls self n v' a))
         name v attrs t = (Ok html, t')
       /\ BuildAttrsCompat.build_attrs_compat_old cls self
            (BuildAttrsCompat.build_attrs_old cls self attrs
               {[ "name" := name ]}) attrs !! "id" = Some id
       /\ MarkItUpWidget.resolve_preview_url = Ok url
       /\ render_to_string "markitup/editor.html"
            {| textarea_id := id; AUTO_PREVIEW := auto_preview self;
               preview_url := url |} = Ok editor
       /\ out = mark_safe (html ++ editor).
Proof.
  intros Hrender. rewrite render_unfold in Hrender.
  destruct (MarkupInput.render _ name v attrs t) as [[html | e] t1];
    [| discriminate].
  destruct new_style_build_attrs eqn:Hflag.
  { rewrite (editor_markup_new_style _ _ _ _ Hflag) in Hrender. discriminate. }
  split; [reflexivity |].
  rewrite (editor_markup_old_style _ _ _ _ Hflag) in Hrender.
  destruct MarkItUpWidget.resolve_preview_url as [url | e]; simpl in Hrender;
    [| discriminate].
  unfold getitem in Hrender.
  destruct (BuildAttrsCompat.build_attrs_compat_old cls self _ attrs !! "id")
    as [id |] eqn:Hid; simpl in Hrender; [| discriminate].
  destruct (render_to_string "markitup/editor.html" _) as [editor | e] eqn:Htpl;
    [| discriminate].
  injection Hrender as <- <-.
  exists html, id, url, editor. auto.
Qed.

(** X12. With the default hook and the old signature, when neither the
    call's attributes nor the widget's own attributes have an [id],
    [render] raises [KeyError] for [id] once the text-area is rendered
    and the preview URL resolved; no editor template is rendered. *)
Theorem X12_render_without_id_KeyError (self : instance)
    (name : string) (v : value) (attrs : option (gmap string string))
    (t t' : trace) (html url : string) :
  new_style_build_attrs = false ->
  MarkupInput.render
    (fun n v' a =>
       lift (Textarea_render BuildAttrsCompat.default_class self n v' a))
    name v attrs t = (Ok html, t') ->
  MarkItUpWidget.resolve_preview_url = Ok url ->
  attrs ≫= (.!! "id") = None ->
  widget_attrs self !! "id" = None ->
  MarkItUpWidget.render BuildAttrsCompat.default_class self name v attrs t
  = (Raise (KeyError "id"), t').
Proof.
  intros Hold Hbase Hurl Hcall Hown.
  apply (render_old_style_no_id _ _ _ _ _ _ _ html url Hold Hbase); [| exact Hurl].
  rewrite final_attrs_lookup, Hcall. exact Hown.
Qed.

(** X13. What the text-area rendering raises, [render] raises: nothing
    after it runs, whatever the signature, the route and the
    attributes. *)
Theorem X13_textarea_error_propagates (cls : widget_class) (self : instance)
    (name : string) (v : value) (attrs : option (gmap string string))
    (t t' : trace) (e : exn) :
  MarkupInput.render (fun n v' a => lift (Textarea_render cls self n v' a))
    name v attrs t = (Raise e, t') ->
  MarkItUpWidget.render cls self name v attrs t = (Raise e, t').
Proof. intros Hbase. now rewrite render_unfold, Hbase. Qed.

(** X14. Under the old signature an exception of [reverse] other than
    [NoReverseMatch] is raised by [render], also when the [id] is
    missing: the route is looked up before the [id]. *)
Theorem X14_reverse_error_propagates (cls : widget_class) (self : instance)
    (name : string) (v : value) (attrs : option (gmap string string))
    (t t' : trace) (html : string) (e : exn) :
  new_style_build_attrs = false ->
  reverse "markitup_preview" = Raise e ->
  is_NoReverseMatch e = false ->
  MarkupInput.render (fun n v' a => lift (Textarea_render cls self n v' a))
    name v attrs t = (Ok html, t') ->
  MarkItUpWidget.render cls self name v attrs t = (Raise e, t').
Proof.
  intros Hold Hr He Hbase.
  rewrite render_unfold, Hbase, (editor_markup_old_style _ _ _ _ Hold).
  unfold MarkItUpWidget.resolve_preview_url. rewrite Hr. simpl.
  now rewrite He.
Qed.

(** X15. Under the old signature a hook that sets [id] decides the
    element id the editor gets, whatever [id] the call or the widget
    carries, and [render] then needs no [id] from either. *)
Theorem X15_hook_id_wins (i : string) (self : instance)
    (name : string) (attrs : option (gmap string string)) :
  new_style_build_attrs = false ->
  MarkItUpWidget.editor_markup
    {| cls_build_attrs_extra := fun _ a => <[ "id" := i ]> a |}
    self name attrs
  = result_bind MarkItUpWidget.resolve_preview_url (fun url =>
      render_to_string "markitup/editor.html"
        {| textarea_id := i; AUTO_PREVIEW := auto_preview self;
           preview_url := url |}).
Proof.
  intros Hold. rewrite (editor_markup_old_style _ _ _ _ Hold).
  unfold BuildAttrsCompat.build_attrs_compat_old. simpl.
  now rewrite (getitem_Some _ "id" i (marker_hook_lookup "id" i _)).
Qed.

End RenderErrors.

Lemma X10_render_new_style_never_returns_witness :
  @MarkItUpWidget.render new_django BuildAttrsCompat.default_class
    (@MarkItUpWidget.init new_django None None None None)
    "body" (VStr "hello") (Some {[ "id" := "id_body" ]}) []
  = (Raise (TypeError "build_attrs() got an unexpected keyword argument 'name'"),
     [GetAttr (VStr "hello") "raw"]).
Proof.
  apply (@X10_render_new_style_never_returns new_django
           BuildAttrsCompat.default_class
           (@MarkItUpWidget.init new_django None None None None)
           "body" (VStr "hello") (Some {[ "id" := "id_body" ]}) []).
  reflexivity.
Defined.

Lemma X11_render_returns_only_if_witness :
  @new_style_build_attrs old_django = false
  /\ exists html id url editor,
       MarkupInput.render
         (fun n v' a =>
            lift (@Textarea_render old_django BuildAttrsCompat.default_class
                    (@MarkItUpWidget.init old_django None None None None)
                    n v' a))
         "body" (VStr "hello") (Some {[ "id" := "id_body" ]}) []
       = (Ok html, [GetAttr (VStr "hello") "raw"])
       /\ BuildAttrsCompat.build_attrs_compat_old BuildAttrsCompat.default_class
            (@MarkItUpWidget.init old_django None None None None)
            (BuildAttrsCompat.build_attrs_old BuildAttrsCompat.default_class
               (@MarkItUpWidget.init old_django None None None None)
               (Some {[ "id" := "id_body" ]}) {[ "name" := "body" ]})
            (Some {[ "id" := "id_body" ]}) !! "id" = Some id
       /\ @MarkItUpWidget.resolve_preview_url old_django = Ok url
       /\ @render_to_string old_django "markitup/editor.html"
            {| textarea_id := id;
               AUTO_PREVIEW :=
                 auto_preview (@MarkItUpWidget.init old_django None None None None);
               preview_url := url |} = Ok editor
       /\ mark_safe
            ("<textarea name=body>hello</textarea>" ++
             "<script>miu(id_body,/markitup/preview/)</script>")
          = mark_safe (html ++ editor).
Proof.
  apply (@X11_render_returns_only_if old_django BuildAttrsCompat.default_class
           (@MarkItUpWidget.init old_django None None None None)
           "body" (VStr "hello") (Some {[ "id" := "id_body" ]})
           [] [GetAttr (VStr "hello") "raw"]).
  vm_compute. reflexivity.
Defined.

Lemma X12_render_without_id_KeyError_witness :
  @MarkItUpWidget.render old_django BuildAttrsCompat.default_class
    (@MarkItUpWidget.init old_django (Some {[ "rows" := "3" ]}) None None None)
    "body" (VStr "hello") (Some {[ "class" := "wide" ]}) []
  = (Raise (KeyError "id"), [GetAttr (VStr "hello") "raw"]).
Proof.
  apply (@X12_render_without_id_KeyError old_django
           (@MarkItUpWidget.init old_django (Some {[ "rows" := "3" ]})
              None None None)
           "body" (VStr "hello") (Some {[ "class" := "wide" ]})
           [] [GetAttr (VStr "hello") "raw"]
           "<textarea name=body>hello</textarea>" "/markitup/preview/").
  - reflexivity.
  - reflexivity.
  - reflexivity.
  - vm_compute. reflexivity.
  - vm_compute. reflexivity.
Defined.

Lemma X13_textarea_error_propagates_witness :
  @MarkItUpWidget.render old_django_broken_textarea
    BuildAttrsCompat.default_class
    (@MarkItUpWidget.init old_django_broken_textarea None None None None)
    "body" (VStr "hello") (Some {[ "id" := "id_body" ]}) []
  = (Raise (OtherError "UnicodeDecodeError"), [GetAttr (VStr "hello") "raw"]).
Proof.
  apply (@X13_textarea_error_propagates old_django_broken_textarea
           BuildAttrsCompat.default_class
           (@MarkItUpWidget.init old_django_broken_textarea None None None None)
           "body" (VStr "hello") (Some {[ "id" := "id_body" ]})
           [] [GetAttr (VStr "hello") "raw"] (OtherError "UnicodeDecodeError")).
  reflexivity.
Defined.

Lemma X14_reverse_error_propagates_witness :
  @MarkItUpWidget.render old_django_broken_urlconf
    BuildAttrsCompat.default_class
    (@MarkItUpWidget.init old_django_broken_urlconf None None None None)
    "body" (VStr "hello") None []
  = (Raise (OtherError "ImproperlyConfigured"), [GetAttr (VStr "hello") "raw"]).
Proof.
  apply (@X14_reverse_error_propagates old_django_broken_urlconf
           BuildAttrsCompat.default_class
           (@MarkItUpWidget.init old_django_broken_urlconf None None None None)
           "body" (VStr "hello") None
           [] [GetAttr (VStr "hello") "raw"]
           "<textarea name=body>hello</textarea>").
  - reflexivity.
  - reflexivity.
  - reflexivity.
  - reflexivity.
Defined.

Lemma X15_hook_id_wins_witness :
  @MarkItUpWidget.editor_markup old_django
    {| cls_build_attrs_extra := fun _ a => <[ "id" := "editor" ]> a |}
    (@MarkItUpWidget.init old_django None None None None)
    "body" (Some {[ "id" := "id_body" ]})
  = result_bind (@MarkItUpWidget.resolve_preview_url old_django) (fun url =>
      @render_to_string old_django "markitup/editor.html"
        {| textarea_id := "editor";
           AUTO_PREVIEW :=
             auto_preview (@MarkItUpWidget.init old_django None None None None);
           preview_url := url |}).
Proof.
  apply (@X15_hook_id_wins old_django "editor"
           (@MarkItUpWidget.init old_django None None None None)
           "body" (Some {[ "id" := "id_body" ]})).
  reflexivity.
Defined.
